(** * vAmiga: Copper, disk controller and Agnus scheduling core

    A shallow embedding of the parts of vAmiga that drive the Copper
    (src/Amiga/Computer/Agnus/Copper.cpp), the disk controller and its FIFO
    (src/Amiga/Computer/Paula/DiskController.cpp) and the Agnus cycle loop and
    event jump tables (src/Emulator/Agnus/Agnus.cpp).

    Machine integers are [Z] with the C conversions written out; C arrays are
    lists read with [!!] and written with [<[i:=x]>]; calls into components
    whose code is kept elsewhere are recorded in the state (register writes,
    raised interrupts) or taken as parameters. *)

From Stdlib Require Import ZArith Bool List Lia.
From stdpp Require Import base numbers list.

Local Open Scope Z_scope.

(** Conversion to an unsigned integer of [w] bits. *)
Definition wrapU (w : Z) (x : Z) : Z := x mod 2 ^ w.

(** Conversion to a signed integer of [w] bits (two's complement). *)
Definition wrapS (w : Z) (x : Z) : Z :=
  (x + 2 ^ (w - 1)) mod 2 ^ w - 2 ^ (w - 1).

(** Reading a C array of integers; positions outside the list read as 0. *)
Definition get (l : list Z) (i : nat) : Z := default 0 (l !! i).

Definition u8 : Z -> Z := wrapU 8.
Definition u16 : Z -> Z := wrapU 16.
Definition u64 : Z -> Z := wrapU 64.
Definition i16 : Z -> Z := wrapS 16.

(** Modelled from the spec: the macro DMA_CYCLES is declared outside the files
    at hand.  The cycle loop aligns the master clock with [~0b111], which the
    spec words as [~(DMA_CYCLES(1)-1)]: one DMA cycle is eight master cycles. *)
Definition DMA_CYCLES (n : Z) : Z := 8 * n.

(** Modelled from the spec: [trigger = NEVER] encodes a disabled slot; the
    constant is the largest 64-bit cycle count. *)
Definition NEVER : Z := 2 ^ 63 - 1.

(* ===================================================================== *)
(** * The Copper (Copper.h, Copper.cpp)                                   *)
(* ===================================================================== *)

Module Copper.

(** The event identifiers that [processEvent] switches on.  [state] is
    declared [int32_t] and [cancelEvent] stores 0 in it: [EVENT_NONE]. *)
Inductive EventID : Type :=
| EVENT_NONE
| COPPER_REQUEST_DMA
| COPPER_FETCH
| COPPER_MOVE
| COPPER_WAIT_OR_SKIP
| COPPER_JMP1
| COPPER_JMP2.

(** The event handler's COPPER_SLOT. *)
Record Slot : Type := mkSlot {
  triggerCycle : Z;
  id : EventID;
  data : Z
}.

(** The fields of class Copper. *)
Record Copper : Type := mkCopper {
  state : EventID;
  skip : bool;
  coplc : Z * Z;
  cdang : bool;
  copins1 : Z;
  copins2 : Z;
  coppc : Z
}.

(** The Copper together with what it reaches through [amiga->]: the beam
    position and clock of the DMA controller, the answer of
    [copperCanHaveBus()], its event slot, memory as seen by [peek16], and
    the calls of [pokeCustom16] made so far (most recent first). *)
Record Amiga : Type := mkAmiga {
  copper : Copper;
  beam : Z;
  clock : Z;
  copperCanHaveBus : bool;
  copperSlot : Slot;
  peek16 : Z -> Z;
  customWrites : list (Z * Z)
}.

Definition setCopper (a : Amiga) (c : Copper) : Amiga :=
  mkAmiga c (beam a) (clock a) (copperCanHaveBus a) (copperSlot a)
          (peek16 a) (customWrites a).

Definition setSlot (a : Amiga) (s : Slot) : Amiga :=
  mkAmiga (copper a) (beam a) (clock a) (copperCanHaveBus a) s
          (peek16 a) (customWrites a).

(** [amiga->mem.pokeCustom16(reg, value)] *)
Definition pokeCustom16 (reg value : Z) (a : Amiga) : Amiga :=
  mkAmiga (copper a) (beam a) (clock a) (copperCanHaveBus a) (copperSlot a)
          (peek16 a) ((reg, value) :: customWrites a).

Definition setState (c : Copper) (s : EventID) : Copper :=
  mkCopper s (skip c) (coplc c) (cdang c) (copins1 c) (copins2 c) (coppc c).

Definition setSkip (c : Copper) (b : bool) : Copper :=
  mkCopper (state c) b (coplc c) (cdang c) (copins1 c) (copins2 c) (coppc c).

Definition setCopins1 (c : Copper) (v : Z) : Copper :=
  mkCopper (state c) (skip c) (coplc c) (cdang c) v (copins2 c) (coppc c).

Definition setCopins2 (c : Copper) (v : Z) : Copper :=
  mkCopper (state c) (skip c) (coplc c) (cdang c) (copins1 c) v (coppc c).

Definition setCoppc (c : Copper) (v : Z) : Copper :=
  mkCopper (state c) (skip c) (coplc c) (cdang c) (copins1 c) (copins2 c) v.

Definition setCdang (c : Copper) (b : bool) : Copper :=
  mkCopper (state c) (skip c) (coplc c) b (copins1 c) (copins2 c) (coppc c).

(** [Copper::illegalAddress] *)
Definition illegalAddress (c : Copper) (address : Z) : bool :=
  let address := Z.land address 0x1FE in
  (if cdang c then 0x40 else 0x80) <=? address.

(** [Copper::pokeCOPCON] *)
Definition pokeCOPCON (value : Z) (c : Copper) : Copper :=
  setCdang c (negb (Z.land value 2 =? 0)).

(** [Copper::advancePC] *)
Definition advancePC (c : Copper) : Copper :=
  setCoppc c (Z.land (coppc c + 2) 0x7FFFE).

(** [Copper::runComparator(beam, waitpos, mask)] *)
Definition runComparator3 (beam waitpos mask : Z) : bool :=
  let beam := Z.land beam 0xFFFF in
  Z.land waitpos mask <=? Z.land beam mask.

(** [Copper::getVPHP()] and [Copper::getVMHM()] *)
Definition getVPHP (c : Copper) : Z := Z.land (copins1 c) 0xFFFE.
Definition getVMHM (c : Copper) : Z := Z.land (copins2 c) 0x7FFE.

(** [Copper::runComparator(waitpos)]: the current beam position is compared
    with the argument. *)
Definition runComparator1 (a : Amiga) (waitpos : Z) : bool :=
  runComparator3 (beam a) waitpos (getVMHM (copper a)).

(** [Copper::runComparator()] *)
Definition runComparator (a : Amiga) : bool :=
  runComparator1 a (getVPHP (copper a)).

(** The loop of [nextTriggerPosition]: [n] is [i + 1], so that the body
    below works on bit [i = n - 1] and [n = 0] is the loop's exit. *)
Fixpoint nextTriggerLoop (a : Amiga) (n : nat) (pos : Z) : Z :=
  match n with
  | O => pos
  | S i =>
      let newPos := Z.land pos (Z.lnot (Z.shiftl 1 (Z.of_nat i))) in
      if (beam a <=? newPos) && runComparator1 a newPos
      then nextTriggerLoop a i newPos
      else pos
  end.

(** [Copper::nextTriggerPosition] *)
Definition nextTriggerPosition (a : Amiga) : Z :=
  nextTriggerLoop a 17 0x1FFFF.

(** [Copper::isMoveCmd()], [isWaitCmd()], [isSkipCmd()] *)
Definition isMoveCmd (c : Copper) : bool := Z.land (copins1 c) 1 =? 0.
Definition isWaitCmd (c : Copper) : bool :=
  negb (Z.land (copins1 c) 1 =? 0) && (Z.land (copins2 c) 1 =? 0).
Definition isSkipCmd (c : Copper) : bool :=
  negb (Z.land (copins1 c) 1 =? 0) && negb (Z.land (copins2 c) 1 =? 0).

(** Modelled from the spec: [scheduleEvent] and [cancelEvent] of the event
    handler are defined outside the files at hand.  A slot holds a trigger
    cycle, an event identifier and a data word; scheduling fills the three,
    and a slot is cancelled by setting its trigger to [NEVER]. *)
Definition scheduleEvent (trigger : Z) (type : EventID) (data : Z) (a : Amiga)
  : Amiga :=
  setSlot a (mkSlot trigger type data).

Definition cancelSlot (a : Amiga) : Amiga :=
  setSlot a (mkSlot NEVER (id (copperSlot a)) (data (copperSlot a))).

(** [Copper::scheduleEventRel]; [data] has the default value 0. *)
Definition scheduleEventRel (delta : Z) (type : EventID) (a : Amiga) : Amiga :=
  let trigger := clock a + delta in
  let a := scheduleEvent trigger type 0 a in
  setCopper a (setState (copper a) type).

(** [Copper::cancelEvent] *)
Definition cancelEvent (a : Amiga) : Amiga :=
  let a := cancelSlot a in
  setCopper a (setState (copper a) EVENT_NONE).

(** The body of [case COPPER_FETCH] of [processEvent]. *)
Definition processFetch (a : Amiga) : Amiga :=
  if copperCanHaveBus a then
    let c := setCopins1 (copper a) (u16 (peek16 a (coppc (copper a)))) in
    let c := advancePC c in
    let a := setCopper a c in
    scheduleEventRel 2
      (if isMoveCmd (copper a) then COPPER_MOVE else COPPER_WAIT_OR_SKIP) a
  else a.

(** [Copper::processEvent].  [COPPER_REQUEST_DMA] has no [break] and runs
    into [COPPER_FETCH]; the [default] case only asserts. *)
Definition processEvent (type : EventID) (a : Amiga) : Amiga :=
  match type with
  | COPPER_REQUEST_DMA =>
      let a := if copperCanHaveBus a
               then scheduleEventRel 2 COPPER_FETCH a else a in
      processFetch a
  | COPPER_FETCH => processFetch a
  | COPPER_MOVE =>
      if copperCanHaveBus a then
        let c := setCopins2 (copper a) (u16 (peek16 a (coppc (copper a)))) in
        let c := advancePC c in
        let a := setCopper a c in
        let reg := Z.land (copins1 (copper a)) 0x1FE in
        if illegalAddress (copper a) reg then cancelEvent a
        else
          let a := pokeCustom16 reg (copins2 (copper a)) a in
          scheduleEventRel 2 COPPER_FETCH a
      else a
  | COPPER_WAIT_OR_SKIP =>
      if copperCanHaveBus a then
        let c := setCopins2 (copper a) (u16 (peek16 a (coppc (copper a)))) in
        let c := advancePC c in
        let a := setCopper a c in
        if isWaitCmd (copper a) then a
        else
          let compare := Z.land (copins1 (copper a)) 0xFFFE in
          let mask := Z.land (copins2 (copper a)) 0x7FFE in
          let beam := Z.land (beam a) 0xFFFF in
          if Z.land compare mask <=? Z.land beam mask
          then setCopper a (setSkip (copper a) true)
          else a
      else a
  | COPPER_JMP1 =>
      let a := setCopper a (setCoppc (copper a) (fst (coplc (copper a)))) in
      scheduleEventRel 2 COPPER_REQUEST_DMA a
  | COPPER_JMP2 =>
      let a := setCopper a (setCoppc (copper a) (snd (coplc (copper a)))) in
      scheduleEventRel 2 COPPER_REQUEST_DMA a
  | EVENT_NONE => a
  end.

(** [Copper::vsyncAction] *)
Definition vsyncAction (a : Amiga) : Amiga :=
  scheduleEventRel 4 COPPER_JMP1 a.

End Copper.

(* ===================================================================== *)
(** * The disk controller (DiskController.cpp)                            *)
(* ===================================================================== *)

Module DiskController.

Inductive DriveState : Type :=
| DRIVE_DMA_OFF
| DRIVE_DMA_WAIT
| DRIVE_DMA_READ
| DRIVE_DMA_WRITE
| DRIVE_DMA_FLUSH.

Definition DriveState_eqb (x y : DriveState) : bool :=
  match x, y with
  | DRIVE_DMA_OFF, DRIVE_DMA_OFF
  | DRIVE_DMA_WAIT, DRIVE_DMA_WAIT
  | DRIVE_DMA_READ, DRIVE_DMA_READ
  | DRIVE_DMA_WRITE, DRIVE_DMA_WRITE
  | DRIVE_DMA_FLUSH, DRIVE_DMA_FLUSH => true
  | _, _ => false
  end.

(** The interrupt sources the controller raises. *)
Inductive IrqSource : Type :=
| INT_DSKBLK
| INT_DSKSYN.

(** The part of class Drive the controller calls.  The drive's code is kept
    apart from the controller's; every function below works for any drive
    that offers these operations. *)
Class DriveOps (D : Type) : Type := {
  rotate : D -> D;
  readHead : D -> Z * D;
  writeHead : Z -> D -> D;
  readHead16 : D -> Z * D;
  writeHead16 : Z -> D -> D;
  findSyncMark : D -> D;
  isTurboDrive : D -> bool
}.

(** The controller's own fields.  The checksum counters, which the source
    marks "for debugging only", and the disk waiting to be inserted are
    left out. *)
Record Controller : Type := mkController {
  fifoBuffering : bool;
  selected : Z;
  acceleration : Z;
  state : DriveState;
  syncFlag : bool;
  incoming : Z;
  incomingCycle : Z;
  fifo : Z;
  fifoCount : Z;
  dsklen : Z;
  dsksync : Z;
  prb : Z
}.

Definition setFifo (c : Controller) (f n : Z) : Controller :=
  mkController (fifoBuffering c) (selected c) (acceleration c) (state c)
    (syncFlag c) (incoming c) (incomingCycle c) f n (dsklen c) (dsksync c)
    (prb c).

Definition setState (c : Controller) (s : DriveState) : Controller :=
  mkController (fifoBuffering c) (selected c) (acceleration c) s
    (syncFlag c) (incoming c) (incomingCycle c) (fifo c) (fifoCount c)
    (dsklen c) (dsksync c) (prb c).

Definition setSyncFlag (c : Controller) (b : bool) : Controller :=
  mkController (fifoBuffering c) (selected c) (acceleration c) (state c)
    b (incoming c) (incomingCycle c) (fifo c) (fifoCount c)
    (dsklen c) (dsksync c) (prb c).

Definition setIncoming (c : Controller) (b cyc : Z) : Controller :=
  mkController (fifoBuffering c) (selected c) (acceleration c) (state c)
    (syncFlag c) b cyc (fifo c) (fifoCount c)
    (dsklen c) (dsksync c) (prb c).

Definition setDsklen (c : Controller) (v : Z) : Controller :=
  mkController (fifoBuffering c) (selected c) (acceleration c) (state c)
    (syncFlag c) (incoming c) (incomingCycle c) (fifo c) (fifoCount c)
    v (dsksync c) (prb c).

Definition setDsksync (c : Controller) (v : Z) : Controller :=
  mkController (fifoBuffering c) (selected c) (acceleration c) (state c)
    (syncFlag c) (incoming c) (incomingCycle c) (fifo c) (fifoCount c)
    (dsklen c) v (prb c).


(** *** The FIFO buffer *)

(** [DiskController::clearFifo] *)
Definition clearFifo (c : Controller) : Controller := setFifo c 0 0.

(** Modelled from the spec: the three inline tests of the class declaration
    (six bytes of capacity, a word is two bytes). *)
Definition fifoIsEmpty (c : Controller) : bool := fifoCount c =? 0.
Definition fifoHasWord (c : Controller) : bool := 2 <=? fifoCount c.
Definition fifoCanStoreWord (c : Controller) : bool := fifoCount c <=? 4.

(** [DiskController::readFifo] *)
Definition readFifo (c : Controller) : Z * Controller :=
  let n := u8 (fifoCount c - 1) in
  (Z.land (Z.shiftr (fifo c) (8 * n)) 0xFF, setFifo c (fifo c) n).

(** [DiskController::writeFifo] *)
Definition writeFifo (byte : Z) (c : Controller) : Controller :=
  let n := if fifoCount c =? 6 then u8 (fifoCount c - 2) else fifoCount c in
  setFifo c (u64 (Z.lor (Z.shiftl (fifo c) 8) byte)) (u8 (n + 1)).

(** [DiskController::readFifo16] *)
Definition readFifo16 (c : Controller) : Z * Controller :=
  let n := u8 (fifoCount c - 2) in
  (Z.land (Z.shiftr (fifo c) (8 * n)) 0xFFFF, setFifo c (fifo c) n).

(** [DiskController::compareFifo] *)
Definition compareFifo (word : Z) (c : Controller) : bool :=
  fifoHasWord c && (Z.land (fifo c) 0xFFFF =? word).

(** [DiskController::pokeDSKSYNC] *)
Definition pokeDSKSYNC (value : Z) (c : Controller) : Controller :=
  setDsksync c value.

Section WithDrive.

Context {D : Type} `{DriveOps D}.

(** The macro [INC_DMAPTR], which advances a DMA pointer, and the macro
    [RESET_SNAPSHOT_ITEMS], which [_reset] runs first, are defined
    outside the files at hand. *)
Variable INC_DMAPTR : Z -> Z.
Variable RESET_SNAPSHOT_ITEMS : Controller -> Controller.

(** The controller with what it reaches through [df], [paula->],
    [agnus->] and [mem->]: the four drives, ADKCON, the interrupts raised
    so far (most recent first, each with its delay), the clock, the disk
    DMA pointer and chip memory. *)
Record Machine : Type := mkMachine {
  dc : Controller;
  df : list D;
  adkcon : Z;
  irqs : list (IrqSource * Z);
  clock : Z;
  dskpt : Z;
  chipMem : Z -> Z
}.

Definition setDc (m : Machine) (c : Controller) : Machine :=
  mkMachine c (df m) (adkcon m) (irqs m) (clock m) (dskpt m) (chipMem m).

Definition setDf (m : Machine) (l : list D) : Machine :=
  mkMachine (dc m) l (adkcon m) (irqs m) (clock m) (dskpt m) (chipMem m).

(** [paula->raiseIrq(src, delay)] *)
Definition raiseIrq (src : IrqSource) (delay : Z) (m : Machine) : Machine :=
  mkMachine (dc m) (df m) (adkcon m) ((src, delay) :: irqs m) (clock m)
            (dskpt m) (chipMem m).

(** [mem->pokeChip16(agnus->dskpt, word); INC_DMAPTR(agnus->dskpt)] *)
Definition pokeChip16AtDskpt (word : Z) (m : Machine) : Machine :=
  let p := dskpt m in
  mkMachine (dc m) (df m) (adkcon m) (irqs m) (clock m) (INC_DMAPTR p)
            (fun a => if a =? p then word else chipMem m a).

(** [word = mem->peekChip16(agnus->dskpt); INC_DMAPTR(agnus->dskpt)] *)
Definition peekChip16AtDskpt (m : Machine) : Z * Machine :=
  let p := dskpt m in
  (u16 (chipMem m p),
   mkMachine (dc m) (df m) (adkcon m) (irqs m) (clock m) (INC_DMAPTR p)
             (chipMem m)).

(** [DiskController::getSelectedDrive]: [None] is the NULL pointer. *)
Definition getSelectedDrive (m : Machine) : option D :=
  if selected (dc m) <? 0 then None
  else df m !! Z.to_nat (selected (dc m)).

(** Writing through the pointer [getSelectedDrive] returned. *)
Definition setSelectedDrive (m : Machine) (d : D) : Machine :=
  setDf m (<[Z.to_nat (selected (dc m)) := d]> (df m)).


(** [DiskController::executeFifo] *)
Definition executeFifo (m : Machine) : Machine :=
  match getSelectedDrive m with
  | None => m
  | Some drive =>
      match state (dc m) with
      | DRIVE_DMA_OFF => setSelectedDrive m (rotate drive)
      | DRIVE_DMA_WAIT | DRIVE_DMA_READ =>
          let (byte, drive) := readHead drive in
          let m := setSelectedDrive m drive in
          let c := setIncoming (dc m) (u8 byte) (clock m) in
          let c := writeFifo (incoming c) c in
          let c := setSyncFlag c (compareFifo (dsksync c) c) in
          let m := setDc m c in
          if syncFlag c then
            let m := raiseIrq INT_DSKSYN 0 m in
            if DriveState_eqb (state c) DRIVE_DMA_WAIT
            then setDc m (clearFifo (setState c DRIVE_DMA_READ))
            else m
          else m
      | DRIVE_DMA_WRITE | DRIVE_DMA_FLUSH =>
          if fifoIsEmpty (dc m) then
            if DriveState_eqb (state (dc m)) DRIVE_DMA_FLUSH
            then setDc m (setState (dc m) DRIVE_DMA_OFF)
            else m
          else
            let (outgoing, c) := readFifo (dc m) in
            setSelectedDrive (setDc m c) (writeHead outgoing drive)
      end
  end.

(** The loop of [DiskController::performTurboRead], run [n] times. *)
Fixpoint performTurboReadLoop (n : nat) (drive : D) (m : Machine)
  : D * Machine :=
  match n with
  | O => (drive, m)
  | S n =>
      let (word, drive) := readHead16 drive in
      performTurboReadLoop n drive (pokeChip16AtDskpt (u16 word) m)
  end.

(** [DiskController::performTurboRead] *)
Definition performTurboRead (drive : D) (m : Machine) : D * Machine :=
  performTurboReadLoop (Z.to_nat (Z.land (dsklen (dc m)) 0x3FFF)) drive m.

(** The loop of [DiskController::performTurboWrite], run [n] times. *)
Fixpoint performTurboWriteLoop (n : nat) (drive : D) (m : Machine)
  : D * Machine :=
  match n with
  | O => (drive, m)
  | S n =>
      let (word, m) := peekChip16AtDskpt m in
      performTurboWriteLoop n (writeHead16 word drive) m
  end.

(** [DiskController::performTurboWrite] *)
Definition performTurboWrite (drive : D) (m : Machine) : D * Machine :=
  performTurboWriteLoop (Z.to_nat (Z.land (dsklen (dc m)) 0x3FFF)) drive m.

(** The end of [performTurboDMA], after the [switch]. *)
Definition finishTurboDMA (dm : D * Machine) : Machine :=
  let (drive, m) := dm in
  let m := setSelectedDrive m drive in
  let m := raiseIrq INT_DSKBLK (DMA_CYCLES 512) m in
  setDc m (setState (dc m) DRIVE_DMA_OFF).

(** [DiskController::performTurboDMA] *)
Definition performTurboDMA (drive : D) (m : Machine) : Machine :=
  if Z.land (dsklen (dc m)) 0x3FFF =? 0 then m
  else
    match state (dc m) with
    | DRIVE_DMA_WAIT =>
        finishTurboDMA (performTurboRead (findSyncMark drive) m)
    | DRIVE_DMA_READ => finishTurboDMA (performTurboRead drive m)
    | DRIVE_DMA_WRITE => finishTurboDMA (performTurboWrite drive m)
    | _ => m
    end.

(** The state switch of [pokeDSKLEN], up to the turbo test.  The line under
    [#ifdef ALIGN_DRIVE_HEAD], which moves the drive head and leaves the
    controller alone, is not compiled in. *)
Definition armDSKLEN (adkcon oldDsklen newDskLen : Z) (c : Controller)
  : Controller :=
  if Z.land newDskLen 0x8000 =? 0 then
    clearFifo (setState c DRIVE_DMA_OFF)
  else if negb (Z.land (Z.land oldDsklen newDskLen) 0x8000 =? 0) then
    if negb (Z.land (Z.land oldDsklen newDskLen) 0x4000 =? 0) then
      clearFifo (setState c DRIVE_DMA_WRITE)
    else if Z.testbit adkcon 10 then
      clearFifo (setState c DRIVE_DMA_WAIT)
    else
      clearFifo (setState c DRIVE_DMA_READ)
  else c.

(** [DiskController::pokeDSKLEN] *)
Definition pokeDSKLEN (newDskLen : Z) (m : Machine) : Machine :=
  let drive := getSelectedDrive m in
  let oldDsklen := dsklen (dc m) in
  let c := setDsklen (dc m) newDskLen in
  let m := setDc m (armDSKLEN (adkcon m) oldDsklen newDskLen c) in
  match drive with
  | Some drive => if isTurboDrive drive then performTurboDMA drive m else m
  | None => m
  end.

(** What the chipset does to the controller between resets: register
    writes and rotation events. *)
Inductive Action : Type :=
| PokeDSKLEN (value : Z)
| PokeDSKSYNC (value : Z)
| Rotate.


Definition perform (m : Machine) (a : Action) : Machine :=
  match a with
  | PokeDSKLEN v => pokeDSKLEN v m
  | PokeDSKSYNC v => setDc m (pokeDSKSYNC v (dc m))
  | Rotate => executeFifo m
  end.

Definition run (l : list Action) (m : Machine) : Machine :=
  fold_left perform l m.

End WithDrive.

Arguments Machine D : clear implicits.

End DiskController.

(* ===================================================================== *)
(** * Agnus: the cycle loop and the event jump tables (Agnus.cpp)         *)
(* ===================================================================== *)

Module Agnus.

(** Modelled from the spec: the two line constants are declared outside the
    files at hand.  The spec gives [HPOS_CNT = 0xE3]; Agnus.cpp puts BPL_EOL
    at [bplEvent[0xE2]], which it writes as [bplEvent[HPOS_MAX]]. *)
Definition HPOS_MAX : Z := 0xE2.
Definition HPOS_CNT : Z := 0xE3.

(** Event identifiers are small integers; the code tests them against zero
    and ors drawing flags into them. *)
Definition EventID : Type := Z.
Definition EVENT_NONE : EventID := 0.

Inductive BusOwner : Type :=
| BUS_NONE
| BUS_DISK
| BUS_AUDIO
| BUS_BITPLANE
| BUS_SPRITE
| BUS_COPPER
| BUS_BLITTER
| BUS_CPU.

Record Beam : Type := mkBeam {
  v : Z;
  h : Z
}.

Record Event : Type := mkEvent {
  triggerCycle : Z;
  id : EventID;
  data : Z
}.

(** *** The jump tables *)

(** The loop shared by [updateBplJumpTable] and [updateDasJumpTable]; it
    runs for [i = n - 1] down to [0].  [next] is declared [u8]. *)
Fixpoint jumpTableLoop (event : list EventID) (n : nat) (next : Z)
  (table : list Z) : list Z :=
  match n with
  | O => table
  | S i =>
      let table := <[i := next]> table in
      let next :=
        if get event i =? EVENT_NONE then next else u8 (Z.of_nat i) in
      jumpTableLoop event i next table
  end.

(** The body of [updateBplJumpTable(end)] and [updateDasJumpTable(end)] on
    an event table and its jump table. *)
Definition updateJumpTable (end_ : Z) (event : list EventID)
  (table : list Z) : list Z :=
  let next := get table (Z.to_nat end_) in
  jumpTableLoop event (Z.to_nat (end_ + 1)) next table.

Section WithWorld.

(** Everything else the event handlers read and write. *)
Context {World : Type}.

Record Agnus : Type := mkAgnus {
  clock : Z;
  pos : Beam;
  nextTrigger : Z;
  slot : list Event;
  busOwner : list BusOwner;
  bplEvent : list EventID;
  dasEvent : list EventID;
  nextBplEvent : list Z;
  nextDasEvent : list Z;
  world : World
}.

Definition setClock (a : Agnus) (c : Z) : Agnus :=
  mkAgnus c (pos a) (nextTrigger a) (slot a) (busOwner a) (bplEvent a)
          (dasEvent a) (nextBplEvent a) (nextDasEvent a) (world a).

Definition setPosH (a : Agnus) (x : Z) : Agnus :=
  mkAgnus (clock a) (mkBeam (v (pos a)) x) (nextTrigger a) (slot a)
          (busOwner a) (bplEvent a) (dasEvent a) (nextBplEvent a)
          (nextDasEvent a) (world a).

Definition setDasEvent (a : Agnus) (t : list EventID) : Agnus :=
  mkAgnus (clock a) (pos a) (nextTrigger a) (slot a) (busOwner a)
          (bplEvent a) t (nextBplEvent a) (nextDasEvent a) (world a).


Definition setNextDasEvent (a : Agnus) (t : list Z) : Agnus :=
  mkAgnus (clock a) (pos a) (nextTrigger a) (slot a) (busOwner a)
          (bplEvent a) (dasEvent a) (nextBplEvent a) t (world a).


(** [Agnus::updateDasJumpTable(end)] *)
Definition updateDasJumpTable (end_ : Z) (a : Agnus) : Agnus :=
  setNextDasEvent a (updateJumpTable end_ (dasEvent a) (nextDasEvent a)).

(** The copy loop of [updateDasEvents], for [i = k .. k + n - 1]. *)
Fixpoint copyEvents (src : list EventID) (k n : nat) (dst : list EventID)
  : list EventID :=
  match n with
  | O => dst
  | S n => copyEvents src (S k) n (<[k := get src k]> dst)
  end.

(** [Agnus::updateDasEvents(dmacon)]; [dasDMA] is the static table that
    [initDasEventTable] fills. *)
Definition updateDasEvents (dasDMA : list (list EventID)) (dmacon : Z)
  (a : Agnus) : Agnus :=
  let a :=
    setDasEvent a
      (copyEvents (dasDMA !!! Z.to_nat dmacon) 0 (Z.to_nat 0x38)
                  (dasEvent a)) in
  updateDasJumpTable 0x38 a.

(** *** The cycle loop *)

(** [executeEventsUntil(cycle)] dispatches the pending events; the
    handlers belong to the other components. *)
Variable executeEventsUntil : Z -> Agnus -> Agnus.

(** [Agnus::execute] *)
Definition execute (a : Agnus) : Agnus :=
  let a :=
    if nextTrigger a <=? clock a then executeEventsUntil (clock a) a
    else a in
  let a := setClock a (clock a + DMA_CYCLES 1) in
  setPosH a (if h (pos a) <? HPOS_MAX then i16 (h (pos a) + 1) else 0).

(** [Agnus::executeUntil], the variant compiled without
    AGNUS_EXEC_DEBUG. *)
Definition executeUntil (targetClock : Z) (a : Agnus) : Agnus :=
  let targetClock := Z.land targetClock (Z.lnot 7) in
  let dmaCycles := Z.quot (targetClock - clock a) (DMA_CYCLES 1) in
  if (targetClock <? nextTrigger a) && (0 <? dmaCycles) then
    let a := setClock a targetClock in
    setPosH a (i16 (h (pos a) + dmaCycles))
  else
    Nat.iter (Z.to_nat dmaCycles) execute a.

(** [execute()] called [n] times in a row. *)
Definition executeCycles (n : Z) (a : Agnus) : Agnus :=
  Nat.iter (Z.to_nat n) execute a.

(** The three assertions of [execute], as a test on the state it is called
    in: with no event due the beam is before the last position of the line;
    the beam is on the line when it is advanced, and after. *)
Definition executeAsserts (a : Agnus) : bool :=
  let due := nextTrigger a <=? clock a in
  let a1 := if due then executeEventsUntil (clock a) a else a in
  (due || (h (pos a) <? 0xE2))
  && (h (pos a1) <=? HPOS_MAX)
  && (h (pos (execute a)) <=? HPOS_CNT).

(** The assertions hold in each of [n] calls of [execute] in a row. *)
Definition cyclesAssert (n : Z) (a : Agnus) : Prop :=
  forall k : nat, (k < Z.to_nat n)%nat ->
    executeAsserts (Nat.iter k execute a) = true.

End WithWorld.

Arguments Agnus World : clear implicits.

End Agnus.

(* ===================================================================== *)
(** * A disk drive (Drive.cpp)                                            *)
(* ===================================================================== *)

Module Drive.

(** The fields of class Drive that the head functions use: the speed of
    the drive configuration, the bytes of the track under the head
    ([None] without a disk) and the head's offset on that track.  The
    drive modelled here has no head step in progress, and the index pulse
    that [rotate] sends to CIA B at the end of the track is left out. *)
Record Drive : Type := mkDrive {
  speed : Z;
  disk : option (list Z);
  offset : Z
}.

Definition trackSize (d : Drive) : Z :=
  match disk d with
  | Some t => Z.of_nat (length t)
  | None => 0
  end.

(** [Drive::rotate] *)
Definition rotate (d : Drive) : Drive :=
  let o := u16 (offset d + 1) in
  mkDrive (speed d) (disk d) (if o =? trackSize d then 0 else o).

(** [Drive::readHead] *)
Definition readHead (d : Drive) : Z * Drive :=
  let result :=
    match disk d with
    | None => 0xFF
    | Some t => get t (Z.to_nat (offset d))
    end in
  (result, rotate d).

(** [Drive::readHead16] *)
Definition readHead16 (d : Drive) : Z * Drive :=
  let (byte1, d) := readHead d in
  let (byte2, d) := readHead d in
  (Z.lor (Z.shiftl byte1 8) byte2, d).

(** [Drive::writeHead] *)
Definition writeHead (value : Z) (d : Drive) : Drive :=
  let d :=
    match disk d with
    | Some t =>
        mkDrive (speed d) (Some (<[Z.to_nat (offset d) := value]> t))
                (offset d)
    | None => d
    end in
  rotate d.

(** [Drive::writeHead16] *)
Definition writeHead16 (value : Z) (d : Drive) : Drive :=
  writeHead (Z.land value 0xFF) (writeHead (Z.land (Z.shiftr value 8) 0xFF) d).

(** The loop of [Drive::findSyncMark], with [n] iterations left. *)
Fixpoint findSyncMarkLoop (n : nat) (d : Drive) : Drive :=
  match n with
  | O => d
  | S n =>
      let (b1, d) := readHead d in
      if negb (b1 =? 0x44) then findSyncMarkLoop n d
      else
        let (b2, d) := readHead d in
        if negb (b2 =? 0x89) then findSyncMarkLoop n d else d
  end.

(** [Drive::findSyncMark] *)
Definition findSyncMark (d : Drive) : Drive :=
  findSyncMarkLoop (Z.to_nat (trackSize d)) d.

(** A negative speed marks a turbo drive (DriveTypes.h). *)
Definition isTurboDrive (d : Drive) : bool := speed d <? 0.

#[global] Instance driveOps : DiskController.DriveOps Drive := {|
  DiskController.rotate := rotate;
  DiskController.readHead := readHead;
  DiskController.writeHead := writeHead;
  DiskController.readHead16 := readHead16;
  DiskController.writeHead16 := writeHead16;
  DiskController.findSyncMark := findSyncMark;
  DiskController.isTurboDrive := isTurboDrive
|}.

End Drive.

(* ===================================================================== *)
(** * Sample machines                                                     *)
(* ===================================================================== *)

Module Samples.

(** Memory holding the words [ws] from address [base] on, zero elsewhere. *)
Definition programAt (base : Z) (ws : list Z) (addr : Z) : Z :=
  if (base <=? addr) && (addr <? base + 2 * Z.of_nat (length ws))
  then get ws (Z.to_nat ((addr - base) / 2))
  else 0.

(** A Copper about to run the MOVE event of an instruction whose first
    word [ins1] has been fetched; the second word [ins2] is next in memory
    and the bus is free. *)
Definition copperAtMove (cdang skip : bool) (ins1 ins2 : Z) : Copper.Amiga :=
  Copper.mkAmiga
    (Copper.mkCopper Copper.COPPER_MOVE skip (0x1000, 0) cdang ins1 0 0x1002)
    0 0 true
    (Copper.mkSlot 2 Copper.COPPER_MOVE 0)
    (programAt 0x1000 [ins1; ins2])
    [].

(** A Copper after power-up with the list
    [SKIP (always true); MOVE 0x1234 -> 0x020] at COP1LC. *)
Definition copperAtSkipList : Copper.Amiga :=
  Copper.mkAmiga
    (Copper.mkCopper Copper.EVENT_NONE false (0x1000, 0) false 0 0 0)
    0 0 true
    (Copper.mkSlot NEVER Copper.EVENT_NONE 0)
    (programAt 0x1000 [0x0001; 0x0001; 0x0020; 0x1234])
    [].

(** A Copper holding [WAIT] for line 0x50 with all compare bits enabled,
    while the beam is at the top of the frame. *)
Definition copperAtWait : Copper.Amiga :=
  Copper.mkAmiga
    (Copper.mkCopper Copper.COPPER_WAIT_OR_SKIP false (0x1000, 0) false
                     0x5001 0xFFFE 0x1004)
    0 0 true
    (Copper.mkSlot 2 Copper.COPPER_WAIT_OR_SKIP 0)
    (programAt 0x1000 [0x5001; 0xFFFE])
    [].

(** A drive with one track of eight bytes. *)
Definition sampleDrive (speed : Z) : Drive.Drive :=
  Drive.mkDrive speed
    (Some [0x12; 0x34; 0x44; 0x89; 0xAA; 0xBB; 0xCC; 0xDD]) 0.

Definition sampleController (sel : Z) (st : DiskController.DriveState)
  (len : Z) : DiskController.Controller :=
  DiskController.mkController true sel 1 st false 0 0 0 0 len 0x4489 0xFF.

(** A machine whose drive 0 runs at [speed]; [sel] is the selected drive,
    [st] the DMA state and [len] the value of DSKLEN. *)
Definition sampleMachine (speed sel : Z) (st : DiskController.DriveState)
  (len : Z) : DiskController.Machine Drive.Drive :=
  DiskController.mkMachine
    (sampleController sel st len)
    [sampleDrive speed; sampleDrive 1; sampleDrive 1; sampleDrive 1]
    0 [] 0 0 (fun _ => 0).

Definition incDmaPtr (p : Z) : Z := Z.land (p + 2) 0x7FFFE.

(** The tables of a line without bitplane DMA: BPL_EOL closes the line, the
    refresh slot and the sprite-DMA marker are the only other events.  The
    numbers stand for the event identifiers, which are non-zero. *)
Definition idleBplEvent : list Agnus.EventID :=
  replicate 0xE2 Agnus.EVENT_NONE ++ [4].

Definition idleDasEvent : list Agnus.EventID :=
  [Agnus.EVENT_NONE; 1] ++ replicate 0xDD Agnus.EVENT_NONE ++ [2]
    ++ replicate 3 Agnus.EVENT_NONE.

(** Agnus at the start of a line, with the jump tables still blank and the
    horizontal-sync event due at [hsync]. *)
Definition lineStart (hsync : Z) : Agnus.Agnus unit :=
  Agnus.mkAgnus 0 (Agnus.mkBeam 0 0) hsync
    [Agnus.mkEvent hsync 1 0]
    (replicate 0xE3 Agnus.BUS_NONE)
    idleBplEvent idleDasEvent
    (replicate 0xE3 0) (replicate 0xE3 0) tt.

(** An event dispatcher that serves the single slot of [lineStart]: it
    starts the next line and schedules the event again. *)
Definition serveHsync (cycle : Z) (a : Agnus.Agnus unit) : Agnus.Agnus unit :=
  Agnus.mkAgnus (Agnus.clock a)
    (Agnus.mkBeam (Agnus.v (Agnus.pos a) + 1) 0)
    (Agnus.nextTrigger a + DMA_CYCLES Agnus.HPOS_CNT)
    [Agnus.mkEvent (Agnus.nextTrigger a + DMA_CYCLES Agnus.HPOS_CNT) 1 0]
    (replicate 0xE3 Agnus.BUS_NONE)
    (Agnus.bplEvent a) (Agnus.dasEvent a)
    (Agnus.nextBplEvent a) (Agnus.nextDasEvent a) tt.

(** A reset that clears the controller's fields. *)
Definition resetItems (c : DiskController.Controller)
  : DiskController.Controller :=
  DiskController.mkController false 0 0 DiskController.DRIVE_DMA_OFF false
    0 0 0 0 0 0 0.

End Samples.

(* ===================================================================== *)
(** * Runs of several calls, and the properties under test                *)
(* ===================================================================== *)

Module Runs.

(** The Copper processing the events [l] one after another. *)
Definition runEvents (l : list Copper.EventID) (a : Copper.Amiga)
  : Copper.Amiga :=
  fold_left (fun a e => Copper.processEvent e a) l a.

(** The register a MOVE addresses. *)
Definition moveReg (a : Copper.Amiga) : Z :=
  Z.land (Copper.copins1 (Copper.copper a)) 0x1FE.

(** [writeFifo] called for each byte of [bs] in order. *)
Definition writeAll (bs : list Z) (c : DiskController.Controller)
  : DiskController.Controller :=
  fold_left (fun c b => DiskController.writeFifo b c) bs c.

(** [readFifo] called [n] times; the bytes in the order returned. *)
Fixpoint readAll (n : nat) (c : DiskController.Controller)
  : list Z * DiskController.Controller :=
  match n with
  | O => ([], c)
  | S n =>
      let (b, c) := DiskController.readFifo c in
      let (bs, c) := readAll n c in
      (b :: bs, c)
  end.

(** The byte of [f] that starts at bit [8 * j]. *)
Definition byteAt (f : Z) (j : nat) : Z :=
  Z.land (Z.shiftr f (8 * Z.of_nat j)) 0xFF.

(** The [k] bytes a FIFO word holds, oldest first. *)
Definition fifoBytes (k : nat) (f : Z) : list Z :=
  map (byteAt f) (rev (seq 0 k)).

Section WithDrive.
Import DiskController.
Context {D : Type} `{DriveOps D}.
Variable INC_DMAPTR : Z -> Z.

(** The DSKLEN rule in the spec's words: DMA is switched off when bit 15
    of the new value is clear, armed when bit 15 is set in the old and the
    new value (for writing when bit 14 is set in both, else waiting for
    the sync word when ADKCON bit 10 is set, else reading), and left alone
    when bit 15 is set in the new value only. *)
Definition dsklenRule (n : Z) (m : Machine D) : Prop :=
  let o := dsklen (dc m) in
  let c' := dc (pokeDSKLEN INC_DMAPTR n m) in
  (Z.testbit n 15 = false ->
     state c' = DRIVE_DMA_OFF /\ fifo c' = 0 /\ fifoCount c' = 0)
  /\ (Z.testbit n 15 = true -> Z.testbit o 15 = true ->
       state c' =
         (if Z.testbit o 14 && Z.testbit n 14 then DRIVE_DMA_WRITE
          else if Z.testbit (adkcon m) 10 then DRIVE_DMA_WAIT
          else DRIVE_DMA_READ)
       /\ fifo c' = 0 /\ fifoCount c' = 0)
  /\ (Z.testbit n 15 = true -> Z.testbit o 15 = false ->
       state c' = state (dc m)).

(** A turbo drive is selected, and the value written to DSKLEN has bit 15
    set and asks for at least one word. *)
Definition turboTransfer (n : Z) (m : Machine D) : bool :=
  match getSelectedDrive m with
  | Some drive =>
      isTurboDrive drive && negb (Z.land n 0x3FFF =? 0) && Z.testbit n 15
  | None => false
  end.

End WithDrive.

(** The jump-table property in the spec's words: the smallest position
    after [h] that holds an event, or the sentinel when there is none.
    [candidates] are the positions after [h] in rising order. *)
Definition firstEvent (event : list Agnus.EventID) (candidates : list nat)
  : option nat :=
  find (fun k => negb (get event k =? Agnus.EVENT_NONE)) candidates.

Definition nextEvent (sentinel : Z) (event : list Agnus.EventID) (h : nat)
  : Z :=
  match firstEvent event (seq (S h) (Z.to_nat Agnus.HPOS_MAX - h)) with
  | Some k => Z.of_nat k
  | None => sentinel
  end.

(** The sentinel: [verifyBplEvents] and [verifyDasEvents] expect 0 behind
    the last event of a line. *)
Definition sentinel : Z := 0.

(** A jump table is in order from position [from] on. *)
Definition jumpTableFrom (from : nat) (event : list Agnus.EventID)
  (table : list Z) : Prop :=
  forall h : nat, (from <= h)%nat -> Z.of_nat h <= Agnus.HPOS_MAX ->
    table !! h = Some (nextEvent sentinel event h).

End Runs.

(* ===================================================================== *)
(** * Properties of the Copper                                            *)
(* ===================================================================== *)

Module CopperSpec.
Import Copper Runs.

Lemma land_1FE_idem x : Z.land (Z.land x 0x1FE) 0x1FE = Z.land x 0x1FE.
Proof. rewrite <- Z.land_assoc. reflexivity. Qed.

(** What a MOVE event does when the bus is granted: the write happens
    exactly when the register lies below the limit that [illegalAddress]
    picks from [cdang]; otherwise the slot is cancelled. *)
Lemma move_event a :
  copperCanHaveBus a = true ->
  let limit := if cdang (copper a) then 0x40 else 0x80 in
  let a' := processEvent COPPER_MOVE a in
  (moveReg a < limit ->
     customWrites a' =
       (moveReg a, u16 (peek16 a (coppc (copper a)))) :: customWrites a
     /\ id (copperSlot a') = COPPER_FETCH
     /\ triggerCycle (copperSlot a') = clock a + 2)
  /\ (limit <= moveReg a ->
        customWrites a' = customWrites a
        /\ triggerCycle (copperSlot a') = NEVER
        /\ state (copper a') = EVENT_NONE).
Proof.
  destruct a as [[st sk lc cd i1 i2 pc] bm ck bus sl pk cw].
  unfold moveReg; simpl. intros ->.
  unfold illegalAddress; simpl. rewrite land_1FE_idem.
  destruct cd; split; intros Hr.
  all: try (apply Z.leb_gt in Hr as Hr'; rewrite Hr'; simpl; auto).
  all: apply Z.leb_le in Hr as Hr'; rewrite Hr'; simpl; auto.
Qed.

(** The MOVE event never reads [skip]: two machines that differ in that
    flag only make the same register writes and leave the flag as it was. *)
Lemma move_ignores_skip a b :
  customWrites (processEvent COPPER_MOVE (setCopper a (setSkip (copper a) b)))
    = customWrites (processEvent COPPER_MOVE a)
  /\ skip (copper (processEvent COPPER_MOVE (setCopper a (setSkip (copper a) b))))
    = b.
Proof.
  destruct a as [[st sk lc cd i1 i2 pc] bm ck bus sl pk cw]; simpl.
  destruct bus; simpl; auto.
  unfold illegalAddress; simpl.
  destruct (_ <=? _); simpl; auto.
Qed.

(** C1.  A MOVE writes registers below 0x40 always, registers 0x40..0x7F
    exactly when [cdang] is set, and halts the Copper from 0x80 on.  The code
    at register 0x040 with the bus granted: with [cdang] set the Copper makes
    no write and cancels its slot, with [cdang] clear it makes the write, the
    reverse of the rule and of the comment in [pokeCOPCON]. *)
Theorem C1_move_blitter_register :
  let on := processEvent COPPER_MOVE (Samples.copperAtMove true false 0x0040 0x1234) in
  let off := processEvent COPPER_MOVE (Samples.copperAtMove false false 0x0040 0x1234) in
  customWrites on = []
  /\ triggerCycle (copperSlot on) = NEVER
  /\ customWrites off = [(0x40, 0x1234)]
  /\ id (copperSlot off) = COPPER_FETCH.
Proof. vm_compute. repeat split; reflexivity. Qed.

(** C2.  A SKIP whose condition holds keeps the next MOVE, and only that
    one, from writing its register.  The code on a list that starts with
    such a SKIP and continues with MOVE 0x1234 to 0x020: processing the SKIP
    sets the flag; the MOVE that follows writes the register all the same,
    and the flag stays set. *)
Theorem C2_move_after_skip :
  let skipped :=
    runEvents [COPPER_JMP1; COPPER_REQUEST_DMA; COPPER_WAIT_OR_SKIP]
              Samples.copperAtSkipList in
  let moved := runEvents [COPPER_FETCH; COPPER_MOVE] skipped in
  isSkipCmd (copper skipped) = true
  /\ skip (copper skipped) = true
  /\ customWrites skipped = []
  /\ customWrites moved = [(0x20, 0x1234)]
  /\ skip (copper moved) = true.
Proof. vm_compute. repeat split; reflexivity. Qed.

(** A MOVE to register 0x080 with [cdang] clear: no write, and the Copper
    halts. *)
Example move_to_0x080_halts :
  let a := processEvent COPPER_MOVE (Samples.copperAtMove false false 0x0080 0x1234) in
  customWrites a = []
  /\ triggerCycle (copperSlot a) = NEVER
  /\ state (copper a) = EVENT_NONE.
Proof. vm_compute. repeat split; reflexivity. Qed.

(** The position [nextTriggerPosition] returns is never before the beam. *)
Lemma nextTriggerLoop_ge_beam a (n : nat) : forall pos,
  beam a <= pos -> beam a <= nextTriggerLoop a n pos.
Proof.
  induction n as [|i IH]; intros pos Hpos; [exact Hpos|].
  cbn [nextTriggerLoop].
  destruct (Z.leb_spec (beam a) (Z.land pos (Z.lnot (Z.shiftl 1 (Z.of_nat i)))));
    cbn [andb]; [|exact Hpos].
  destruct (runComparator1 a _); [apply IH; assumption | exact Hpos].
Qed.

Lemma nextTriggerPosition_ge_beam a :
  beam a <= 0x1FFFF -> beam a <= nextTriggerPosition a.
Proof. apply nextTriggerLoop_ge_beam. Qed.

(** The returned position does not depend on the position the instruction
    waits for: the first instruction word is never looked at. *)
Lemma nextTriggerPosition_ignores_waitpos a x :
  nextTriggerPosition (setCopper a (setCopins1 (copper a) x))
  = nextTriggerPosition a.
Proof.
  unfold nextTriggerPosition. generalize 0x1FFFF. generalize 17%nat.
  intros n. induction n as [|i IH]; intros pos; [reflexivity|].
  cbn [nextTriggerLoop]. rewrite IH. reflexivity.
Qed.

(** C5.  The position [nextTriggerPosition] returns is the smallest one at
    or after the beam at which the comparator triggers.  The code with the
    beam at 0 and a WAIT for line 0x50: it returns 0x1FFFF, although the
    comparator already triggers at 0x5000, which lies between the beam and
    the returned position. *)
Theorem C5_wake_position_not_smallest :
  let a := Samples.copperAtWait in
  let W := nextTriggerPosition a in
  W = 0x1FFFF
  /\ beam a <= 0x5000 < W
  /\ runComparator3 0x5000 (getVPHP (copper a)) (getVMHM (copper a)) = true.
Proof. vm_compute. repeat split; try reflexivity; discriminate. Qed.

End CopperSpec.

(* ===================================================================== *)
(** * Properties of the disk controller                                   *)
(* ===================================================================== *)

Module DiskSpec.
Import DiskController Runs.

(** *** Bits and bytes *)

Lemma land_pow2_eqb x k :
  0 <= k -> (Z.land x (2 ^ k) =? 0) = negb (Z.testbit x k).
Proof.
  intros Hk. destruct (Z.testbit x k) eqn:E; simpl.
  - apply Z.eqb_neq. intros H0.
    apply (f_equal (fun y => Z.testbit y k)) in H0.
    rewrite Z.land_spec, E, Z.pow2_bits_true, Z.bits_0 in H0 by lia.
    discriminate.
  - apply Z.eqb_eq. apply Z.bits_inj'. intros i Hi.
    rewrite Z.land_spec, Z.bits_0, Z.pow2_bits_eqb by lia.
    destruct (Z.eqb_spec k i); subst; rewrite ?E, ?andb_false_r; auto.
Qed.

Lemma land2_pow2_eqb x y k :
  0 <= k ->
  (Z.land (Z.land x y) (2 ^ k) =? 0) = negb (Z.testbit x k && Z.testbit y k).
Proof. intros Hk. rewrite land_pow2_eqb, Z.land_spec by lia. reflexivity. Qed.

Lemma u8_small x : 0 <= x < 256 -> u8 x = x.
Proof. intros Hx. unfold u8, wrapU. apply Z.mod_small. lia. Qed.

Lemma testbit_FF i : 0 <= i -> Z.testbit 0xFF i = (i <? 8).
Proof.
  intros Hi. change 0xFF with (Z.ones 8).
  destruct (Z.ltb_spec i 8).
  - apply Z.ones_spec_low. lia.
  - apply Z.ones_spec_high. lia.
Qed.

Lemma testbit_byte b i : 0 <= b < 256 -> 8 <= i -> Z.testbit b i = false.
Proof.
  intros Hb Hi. destruct (Z.eq_dec b 0) as [->|Hn]; [apply Z.bits_0|].
  apply Z.bits_above_log2; [lia|].
  assert (Z.log2 b < 8); [|lia].
  apply Z.log2_lt_pow2; lia.
Qed.

(** Pushing a byte moves the bytes in the FIFO word up by one place... *)
Lemma byteAt_push_S f b j :
  0 <= b < 256 -> (j < 7)%nat ->
  byteAt (u64 (Z.lor (Z.shiftl f 8) b)) (S j) = byteAt f j.
Proof.
  intros Hb Hj. unfold byteAt, u64, wrapU.
  apply Z.bits_inj'. intros i Hi.
  rewrite !Z.land_spec, !Z.shiftr_spec, testbit_FF by lia.
  destruct (Z.ltb_spec i 8); rewrite ?andb_false_r; auto.
  rewrite !andb_true_r.
  rewrite Z.mod_pow2_bits_low by lia.
  rewrite Z.lor_spec, Z.shiftl_spec by lia.
  rewrite (testbit_byte b) by lia. rewrite orb_false_r.
  f_equal. lia.
Qed.

(** ... and puts the new byte in the lowest place. *)
Lemma byteAt_push_0 f b :
  0 <= b < 256 -> byteAt (u64 (Z.lor (Z.shiftl f 8) b)) 0 = b.
Proof.
  intros Hb. unfold byteAt, u64, wrapU.
  apply Z.bits_inj'. intros i Hi.
  rewrite !Z.land_spec, !Z.shiftr_spec, testbit_FF by lia.
  change (8 * Z.of_nat 0) with 0. rewrite Z.add_0_r.
  destruct (Z.ltb_spec i 8).
  - rewrite andb_true_r, Z.mod_pow2_bits_low by lia.
    rewrite Z.lor_spec, Z.shiftl_spec_low by lia. reflexivity.
  - rewrite andb_false_r. symmetry. apply testbit_byte; lia.
Qed.

Lemma fifoBytes_push k f b :
  0 <= b < 256 -> (k < 7)%nat ->
  fifoBytes (S k) (u64 (Z.lor (Z.shiftl f 8) b)) = fifoBytes k f ++ [b].
Proof.
  intros Hb Hk. unfold fifoBytes.
  change (seq 0 (S k)) with (0%nat :: seq 1 k).
  rewrite <- seq_shift. cbn [rev]. rewrite map_app. cbn [map].
  rewrite byteAt_push_0 by assumption. f_equal.
  rewrite <- map_rev, map_map.
  apply map_ext_in. intros j Hj.
  apply byteAt_push_S; [assumption|].
  apply in_rev, in_seq in Hj. lia.
Qed.

(** *** The FIFO *)

Lemma writeFifo_count b c :
  0 <= fifoCount c < 6 -> fifoCount (writeFifo b c) = fifoCount c + 1.
Proof.
  intros Hc. unfold writeFifo.
  destruct (Z.eqb_spec (fifoCount c) 6); [lia|].
  simpl. apply u8_small. lia.
Qed.

Lemma writeFifo_fifo b c :
  fifoCount c <> 6 ->
  fifo (writeFifo b c) = u64 (Z.lor (Z.shiftl (fifo c) 8) b).
Proof. reflexivity. Qed.

Lemma writeAll_bytes bs : forall c (k : nat),
  fifoCount c = Z.of_nat k -> (k + length bs <= 6)%nat ->
  Forall (fun b => 0 <= b < 256) bs ->
  fifoCount (writeAll bs c) = Z.of_nat (k + length bs)
  /\ fifoBytes (k + length bs) (fifo (writeAll bs c))
     = fifoBytes k (fifo c) ++ bs.
Proof.
  induction bs as [|b bs IH]; intros c k Hc Hlen Hbs.
  - simpl. rewrite Nat.add_0_r, app_nil_r. auto.
  - simpl in Hlen. apply Forall_cons_1 in Hbs as [Hb Hbs].
    change (writeAll (b :: bs) c) with (writeAll bs (writeFifo b c)).
    destruct (IH (writeFifo b c) (S k)) as [IHc IHb]; [| lia | assumption |].
    { rewrite writeFifo_count by lia. lia. }
    replace (k + length (b :: bs))%nat with (S k + length bs)%nat
      by (simpl; lia).
    split; [exact IHc|].
    rewrite IHb. unfold writeFifo.
    destruct (Z.eqb_spec (fifoCount c) 6); [lia|]. cbn [fifo setFifo].
    rewrite fifoBytes_push by (assumption || lia).
    rewrite <- app_assoc. reflexivity.
Qed.

Lemma readAll_bytes (k : nat) : forall c,
  fifoCount c = Z.of_nat k -> (k <= 6)%nat ->
  readAll k c = (fifoBytes k (fifo c), setFifo c (fifo c) 0).
Proof.
  induction k as [|k IH]; intros c Hc Hk.
  - simpl. unfold fifoBytes. simpl. f_equal.
    destruct c; simpl in *; subst; reflexivity.
  - cbn [readAll]. unfold readFifo.
    assert (Hn : u8 (fifoCount c - 1) = Z.of_nat k)
      by (rewrite u8_small; lia).
    rewrite Hn. rewrite IH by (simpl; lia). cbn [fifo setFifo].
    f_equal.
    unfold fifoBytes. rewrite seq_S, rev_app_distr. simpl. reflexivity.
Qed.

(** C8.  Up to six bytes written to an empty FIFO come back from the same
    number of [readFifo] calls in the order written, and the FIFO is empty
    afterwards. *)
Theorem C8_fifo_round_trip (bs : list Z) (c : Controller) :
  (length bs <= 6)%nat ->
  Forall (fun b => 0 <= b < 256) bs ->
  fifoIsEmpty c = true ->
  fst (readAll (length bs) (writeAll bs c)) = bs
  /\ fifoIsEmpty (snd (readAll (length bs) (writeAll bs c))) = true.
Proof.
  intros Hlen Hbs Hc. apply Z.eqb_eq in Hc.
  destruct (writeAll_bytes bs c 0) as [Hcnt Hbytes]; auto.
  simpl in Hcnt, Hbytes.
  rewrite readAll_bytes by assumption. simpl.
  split; [exact Hbytes | reflexivity].
Qed.

Lemma C8_fifo_round_trip_witness :
  let bs := [0x12; 0x34; 0x44; 0x89; 0xAA; 0xBB] in
  let c := clearFifo (Samples.sampleController 0 DRIVE_DMA_WRITE 0) in
  fst (readAll (length bs) (writeAll bs c)) = bs
  /\ fifoIsEmpty (snd (readAll (length bs) (writeAll bs c))) = true.
Proof.
  apply (C8_fifo_round_trip [0x12; 0x34; 0x44; 0x89; 0xAA; 0xBB]
           (clearFifo (Samples.sampleController 0 DRIVE_DMA_WRITE 0))).
  - simpl. lia.
  - repeat constructor; lia.
  - reflexivity.
Defined.

Section WithDrive.
Context {D : Type} `{DriveOps D}.
Variable INC_DMAPTR : Z -> Z.
Variable RESET_SNAPSHOT_ITEMS : Controller -> Controller.

(** *** DSKLEN *)

Lemma armDSKLEN_state a o n c :
  let c' := armDSKLEN a o n c in
  (Z.testbit n 15 = false ->
     state c' = DRIVE_DMA_OFF /\ fifo c' = 0 /\ fifoCount c' = 0)
  /\ (Z.testbit n 15 = true -> Z.testbit o 15 = true ->
       state c' =
         (if Z.testbit o 14 && Z.testbit n 14 then DRIVE_DMA_WRITE
          else if Z.testbit a 10 then DRIVE_DMA_WAIT
          else DRIVE_DMA_READ)
       /\ fifo c' = 0 /\ fifoCount c' = 0)
  /\ (Z.testbit n 15 = true -> Z.testbit o 15 = false ->
       c' = c).
Proof.
  unfold armDSKLEN.
  change 0x8000 with (2 ^ 15). change 0x4000 with (2 ^ 14).
  rewrite land_pow2_eqb, !land2_pow2_eqb by lia.
  rewrite !negb_involutive.
  generalize (Z.testbit n 15) (Z.testbit o 15) (Z.testbit o 14)
             (Z.testbit n 14) (Z.testbit a 10).
  intros [] [] [] [] []; cbn; repeat split; intros; try discriminate; auto.
Qed.

Lemma armDSKLEN_dsklen a o n c :
  dsklen (armDSKLEN a o n c) = dsklen c.
Proof.
  unfold armDSKLEN.
  repeat match goal with |- context [if ?b then _ else _] => destruct b end;
    reflexivity.
Qed.


(** Without a turbo transfer, [pokeDSKLEN] is the state switch alone. *)
Lemma pokeDSKLEN_no_turbo n (m : Machine D) :
  turboTransfer n m = false ->
  pokeDSKLEN INC_DMAPTR n m =
    setDc m (armDSKLEN (adkcon m) (dsklen (dc m)) n (setDsklen (dc m) n)).
Proof.
  unfold turboTransfer, pokeDSKLEN.
  destruct (getSelectedDrive m) as [drive|]; [|reflexivity].
  destruct (isTurboDrive drive); [|reflexivity].
  cbn [andb]. intros Hn.
  unfold performTurboDMA. cbn [dc setDc].
  rewrite armDSKLEN_dsklen. cbn [dsklen setDsklen].
  destruct (Z.land n 0x3FFF =? 0); [reflexivity|].
  cbn [negb andb] in Hn.
  pose proof (armDSKLEN_state (adkcon m) (dsklen (dc m)) n
                (setDsklen (dc m) n)) as (Hoff & _).
  destruct (Hoff Hn) as [-> _]. reflexivity.
Qed.

(** C3 (amended).  Unless a turbo drive is selected and the new value has
    bit 15 set and asks for at least one word, a write to DSKLEN follows the
    rule: off and FIFO cleared when bit 15 of the new value is clear; armed
    with the FIFO cleared when bit 15 is set in the old and the new value
    (write when bit 14 is set in both, else wait for sync when ADKCON bit 10
    is set, else read); state unchanged when bit 15 is set in the new value
    only. *)
Theorem C3_pokeDSKLEN_rule (n : Z) (m : Machine D) :
  turboTransfer n m = false -> dsklenRule INC_DMAPTR n m.
Proof.
  intros Hturbo. unfold dsklenRule.
  rewrite pokeDSKLEN_no_turbo by assumption. cbn [dc setDc].
  pose proof (armDSKLEN_state (adkcon m) (dsklen (dc m)) n
                (setDsklen (dc m) n)) as (H1 & H2 & H3).
  repeat split; intros.
  1-3: apply H1; assumption.
  1-3: apply H2; assumption.
  rewrite H3 by assumption. reflexivity.
Qed.

(** With a turbo transfer, the controller is back in [DRIVE_DMA_OFF] when
    [pokeDSKLEN] returns, whatever state the rule selected. *)
Lemma pokeDSKLEN_turbo_off n (m : Machine D) :
  turboTransfer n m = true ->
  Z.testbit (dsklen (dc m)) 15 = true ->
  state (dc (pokeDSKLEN INC_DMAPTR n m)) = DRIVE_DMA_OFF.
Proof.
  unfold turboTransfer, pokeDSKLEN.
  destruct (getSelectedDrive m) as [drive|]; [|discriminate].
  intros Ht Ho. apply andb_true_iff in Ht as [Ht Hn].
  apply andb_true_iff in Ht as [-> Hcnt].
  apply negb_true_iff in Hcnt.
  unfold performTurboDMA. cbn [dc setDc].
  rewrite armDSKLEN_dsklen. cbn [dsklen setDsklen]. rewrite Hcnt.
  pose proof (armDSKLEN_state (adkcon m) (dsklen (dc m)) n
                (setDsklen (dc m) n)) as (_ & H2 & _).
  destruct (H2 Hn Ho) as [-> _].
  destruct (Z.testbit (dsklen (dc m)) 14 && Z.testbit n 14);
    [|destruct (Z.testbit (adkcon m) 10)].
  all: unfold finishTurboDMA;
    match goal with |- context [let (_, _) := ?p in _] => destruct p end;
    reflexivity.
Qed.

(** *** Rotation events *)

(** C9.  With no drive selected, a rotation step changes nothing: the
    controller's fields, the drives and the list of raised interrupts are
    what they were. *)
Theorem C9_executeFifo_no_drive (m : Machine D) :
  selected (dc m) = -1 -> executeFifo m = m.
Proof.
  intros Hsel. unfold executeFifo, getSelectedDrive. rewrite Hsel.
  reflexivity.
Qed.

Lemma getSelectedDrive_set (m : Machine D) d d' :
  getSelectedDrive m = Some d ->
  getSelectedDrive (setSelectedDrive m d') = Some d'.
Proof.
  unfold getSelectedDrive, setSelectedDrive. cbn [dc df setDf].
  destruct (selected (dc m) <? 0); [discriminate|].
  intros Hd. apply list_lookup_insert_eq.
  apply lookup_lt_Some in Hd. exact Hd.
Qed.

(** C4.  In [DRIVE_DMA_WAIT] or [DRIVE_DMA_READ] with a drive selected, a
    rotation step reads one byte from the drive and pushes it into the
    FIFO.  [syncFlag] becomes the outcome of comparing the FIFO, as it is
    after the push, with [dsksync]: at least two bytes and the low 16 bits
    equal.  On a match the sync interrupt is raised, and from
    [DRIVE_DMA_WAIT] the state becomes [DRIVE_DMA_READ] with the FIFO
    cleared; otherwise state and pushed FIFO stay. *)
Theorem C4_executeFifo_read (m : Machine D) (drive : D) :
  getSelectedDrive m = Some drive ->
  state (dc m) = DRIVE_DMA_WAIT \/ state (dc m) = DRIVE_DMA_READ ->
  let byte := u8 (fst (readHead drive)) in
  let pushed := writeFifo byte (dc m) in
  let hit :=
    (2 <=? fifoCount pushed)
    && (Z.land (fifo pushed) 0xFFFF =? dsksync (dc m)) in
  let m' := executeFifo m in
  getSelectedDrive m' = Some (snd (readHead drive))
  /\ incoming (dc m') = byte
  /\ incomingCycle (dc m') = clock m
  /\ syncFlag (dc m') = hit
  /\ irqs m' = (if hit then [(INT_DSKSYN, 0)] else []) ++ irqs m
  /\ (if hit && DriveState_eqb (state (dc m)) DRIVE_DMA_WAIT
      then state (dc m') = DRIVE_DMA_READ
           /\ fifo (dc m') = 0 /\ fifoCount (dc m') = 0
      else state (dc m') = state (dc m)
           /\ fifo (dc m') = fifo pushed
           /\ fifoCount (dc m') = fifoCount pushed).
Proof.
  intros Hd Hst byte pushed hit m'.
  assert (Hm' : m' =
    let m1 := setSelectedDrive m (snd (readHead drive)) in
    let c := setSyncFlag (writeFifo byte (setIncoming (dc m) byte (clock m)))
                         hit in
    let m2 := setDc m1 c in
    if hit then
      let m3 := raiseIrq INT_DSKSYN 0 m2 in
      if DriveState_eqb (state (dc m)) DRIVE_DMA_WAIT
      then setDc m3 (clearFifo (setState c DRIVE_DMA_READ))
      else m3
    else m2).
  { subst m' hit pushed byte. unfold executeFifo. rewrite Hd.
    destruct (readHead drive) as [b d'] eqn:Er. cbn [fst snd].
    assert (Hs : forall x, state (setSyncFlag
              (writeFifo (u8 b) (setIncoming (dc m) (u8 b) (clock m))) x)
            = state (dc m)) by reflexivity.
    destruct (state (dc m)) eqn:Est;
      (destruct Hst as [Hst | Hst]; try discriminate Hst);
      cbv zeta; cbn [dc setDc setSelectedDrive setDf clock];
      rewrite Hs; reflexivity. }
  rewrite Hm'. clear Hm' m'.
  pose proof (getSelectedDrive_set m drive (snd (readHead drive)) Hd) as Hg.
  destruct hit; cbn [andb].
  - destruct (DriveState_eqb (state (dc m)) DRIVE_DMA_WAIT);
      cbn; repeat split; try reflexivity; exact Hg.
  - cbn. repeat split; try reflexivity; exact Hg.
Qed.

(** *** Reset *)






Lemma writeFifo_dsksync b c : dsksync (writeFifo b c) = dsksync c.
Proof. reflexivity. Qed.




End WithDrive.

(** *** The rules at work on a machine with four drives *)

(** C3 (counterexample).  Drive 0 is a turbo drive and selected; DSKLEN
    holds 0x8001 and 0x8001 is written again.  The rule asks for
    [DRIVE_DMA_READ]; the word is transferred at once and the controller
    is left in [DRIVE_DMA_OFF]. *)
Lemma C3_turbo_counterexample :
  ~ dsklenRule Samples.incDmaPtr 0x8001
      (Samples.sampleMachine (-1) 0 DRIVE_DMA_OFF 0x8001).
Proof.
  intros (_ & Harmed & _).
  destruct (Harmed eq_refl eq_refl) as [Hstate _].
  vm_compute in Hstate. discriminate Hstate.
Qed.

Lemma C3_pokeDSKLEN_rule_witness :
  turboTransfer 0x8001 (Samples.sampleMachine 1 0 DRIVE_DMA_OFF 0x8001) = false
  /\ dsklenRule Samples.incDmaPtr 0x8001
       (Samples.sampleMachine 1 0 DRIVE_DMA_OFF 0x8001).
Proof.
  split; [reflexivity|].
  apply (C3_pokeDSKLEN_rule Samples.incDmaPtr 0x8001
           (Samples.sampleMachine 1 0 DRIVE_DMA_OFF 0x8001)).
  reflexivity.
Defined.

(** The controller waits for the sync word; the track starts with
    0x12 0x34 0x44 0x89 and three bytes have gone by. *)
Lemma C4_executeFifo_read_witness :
  let m := run Samples.incDmaPtr [Rotate; Rotate; Rotate]
             (Samples.sampleMachine 1 0 DRIVE_DMA_WAIT 0x8001) in
  let drive := Drive.mkDrive 1 (Drive.disk (Samples.sampleDrive 1)) 3 in
  getSelectedDrive m = Some drive
  /\ (state (dc m) = DRIVE_DMA_WAIT \/ state (dc m) = DRIVE_DMA_READ)
  /\ incoming (dc (executeFifo m)) = 0x89
  /\ syncFlag (dc (executeFifo m)) = true
  /\ irqs (executeFifo m) = [(INT_DSKSYN, 0)]
  /\ state (dc (executeFifo m)) = DRIVE_DMA_READ
  /\ fifoCount (dc (executeFifo m)) = 0.
Proof.
  intros m drive.
  pose proof (C4_executeFifo_read m drive eq_refl (or_introl eq_refl))
    as (_ & Hin & _ & Hsync & Hirq & Hst & _ & Hcnt).
  split; [reflexivity|]. split; [left; reflexivity|].
  split; [exact Hin|]. split; [exact Hsync|]. split; [exact Hirq|].
  split; [exact Hst | exact Hcnt].
Defined.

Lemma C9_executeFifo_no_drive_witness :
  let m := Samples.sampleMachine 1 (-1) DRIVE_DMA_READ 0x8001 in
  selected (dc m) = -1 /\ executeFifo m = m.
Proof.
  intros m. split; [reflexivity|].
  apply (C9_executeFifo_no_drive m). reflexivity.
Defined.

End DiskSpec.

(* ===================================================================== *)
(** * Properties of Agnus                                                 *)
(* ===================================================================== *)

Module AgnusSpec.
Import Agnus Runs.

(** *** The jump tables *)

Lemma find_app {A} (f : A -> bool) (l1 l2 : list A) :
  find f (l1 ++ l2) =
    match find f l1 with Some x => Some x | None => find f l2 end.
Proof.
  induction l1 as [|x l1 IH]; [reflexivity|].
  simpl. destruct (f x); [reflexivity | exact IH].
Qed.

(** The positions after [h] and below [n], in rising order. *)
Local Abbreviation between h n := (seq (S h) (n - S h)).

Lemma between_S (h i : nat) :
  (h < i)%nat -> between h (S i) = between h i ++ [i].
Proof.
  intros Hh. replace (S i - S h)%nat with (S (i - S h)) by lia.
  rewrite seq_S. do 2 f_equal. lia.
Qed.

Lemma between_split (h e n : nat) :
  (h <= e)%nat -> (e < n)%nat ->
  between h n = between h (S e) ++ between e n.
Proof.
  intros He Hn. replace (n - S h)%nat with ((S e - S h) + (n - S e))%nat by lia.
  rewrite seq_app. do 2 f_equal. lia.
Qed.

(** What the loop leaves in the table: below [n] the first event position
    between the entry and [n], or the value [next] the loop started with;
    from [n] on the old entries. *)
Lemma jumpTableLoop_lookup event (n : nat) : forall next table (h : nat),
  (n <= length table)%nat -> (n <= 256)%nat ->
  jumpTableLoop event n next table !! h =
    if (h <? n)%nat then
      Some (match firstEvent event (between h n) with
            | Some k => Z.of_nat k
            | None => next
            end)
    else table !! h.
Proof.
  induction n as [|i IH]; intros next table h Hlen Hn.
  - reflexivity.
  - cbn [jumpTableLoop]. rewrite IH by (rewrite ?length_insert; lia).
    destruct (Nat.ltb_spec h i) as [Hhi|Hhi].
    + replace (h <? S i)%nat with true by (symmetry; apply Nat.ltb_lt; lia).
      rewrite between_S by assumption.
      unfold firstEvent. rewrite find_app.
      destruct (find _ (between h i)); [reflexivity|].
      cbn [find]. destruct (get event i =? EVENT_NONE); cbn [negb].
      * reflexivity.
      * f_equal. unfold u8, wrapU. apply Z.mod_small. lia.
    + destruct (Nat.eq_dec h i) as [->|Hne].
      * rewrite list_lookup_insert_eq by lia.
        replace (i <? S i)%nat with true by (symmetry; apply Nat.ltb_lt; lia).
        replace (S i - S i)%nat with 0%nat by lia. reflexivity.
      * rewrite list_lookup_insert_ne by lia.
        replace (h <? S i)%nat with false by (symmetry; apply Nat.ltb_ge; lia).
        reflexivity.
Qed.

(** A rebuild up to [end_] puts the whole table in order, given that the
    entries from [end_] on are. *)
Lemma updateJumpTable_in_order (end_ : Z) event table :
  0 <= end_ <= HPOS_MAX ->
  Z.of_nat (length table) = HPOS_CNT ->
  jumpTableFrom (Z.to_nat end_) event table ->
  jumpTableFrom 0 event (updateJumpTable end_ event table).
Proof.
  unfold HPOS_MAX, HPOS_CNT. intros Hend Hlen Hfrom h _ Hh.
  unfold updateJumpTable.
  rewrite jumpTableLoop_lookup by lia.
  replace (Z.to_nat (end_ + 1)) with (S (Z.to_nat end_)) by lia.
  set (e := Z.to_nat end_).
  assert (He : get table e = nextEvent sentinel event e).
  { unfold get. rewrite (Hfrom e); [reflexivity | lia | unfold HPOS_MAX; lia]. }
  destruct (Nat.ltb_spec h (S e)) as [Hlt|Hge].
  - f_equal. rewrite He. unfold nextEvent.
    replace (Z.to_nat HPOS_MAX - h)%nat with (S (Z.to_nat HPOS_MAX) - S h)%nat
      by lia.
    replace (Z.to_nat HPOS_MAX - e)%nat with (S (Z.to_nat HPOS_MAX) - S e)%nat
      by lia.
    rewrite (between_split h e (S (Z.to_nat HPOS_MAX)))
      by (unfold HPOS_MAX; lia).
    unfold firstEvent. rewrite find_app.
    destruct (find _ (between h (S e))); reflexivity.
  - subst e. apply Hfrom; [lia | exact Hh].
Qed.

Lemma copyEvents_length src n : forall k dst,
  length (copyEvents src k n dst) = length dst.
Proof.
  induction n as [|n IH]; intros k dst; [reflexivity|].
  cbn [copyEvents]. rewrite IH, length_insert. reflexivity.
Qed.

Lemma copyEvents_above src n : forall k dst (j : nat),
  (k + n <= j)%nat -> get (copyEvents src k n dst) j = get dst j.
Proof.
  induction n as [|n IH]; intros k dst j Hj; [reflexivity|].
  cbn [copyEvents]. rewrite IH by lia.
  unfold get. rewrite list_lookup_insert_ne by lia. reflexivity.
Qed.

Lemma firstEvent_ext ev1 ev2 l :
  (forall k, In k l -> get ev1 k = get ev2 k) ->
  firstEvent ev1 l = firstEvent ev2 l.
Proof.
  unfold firstEvent. induction l as [|x l IH]; intros Hl; [reflexivity|].
  cbn [find]. rewrite (Hl x) by (left; reflexivity).
  destruct (negb _); [reflexivity|].
  apply IH. intros k Hk. apply Hl. right. exact Hk.
Qed.

Section WithWorld.
Context {World : Type}.

(** [updateDasEvents] keeps a table that is in order in order: it touches
    the events below 0x38 only and rebuilds the jump table up to there. *)
Lemma updateDasEvents_in_order dasDMA dmacon (a : Agnus World) :
  Z.of_nat (length (nextDasEvent a)) = HPOS_CNT ->
  jumpTableFrom 0 (dasEvent a) (nextDasEvent a) ->
  let a' := updateDasEvents dasDMA dmacon a in
  jumpTableFrom 0 (dasEvent a') (nextDasEvent a').
Proof.
  intros Hlen Hord a'. subst a'. unfold updateDasEvents, updateDasJumpTable.
  cbn [dasEvent nextDasEvent setDasEvent setNextDasEvent].
  apply updateJumpTable_in_order; [unfold HPOS_MAX; lia | exact Hlen |].
  intros h Hh Hmax. rewrite (Hord h) by (lia || assumption).
  f_equal. unfold nextEvent.
  erewrite firstEvent_ext; [reflexivity|].
  intros k Hk. apply in_seq in Hk. symmetry.
  apply copyEvents_above. lia.
Qed.


(** *** The cycle loop *)

Variable executeEventsUntil : Z -> Agnus World -> Agnus World.

Lemma land_lnot7 x : x mod 8 = 0 -> Z.land x (Z.lnot 7) = x.
Proof.
  intros Hx. apply Z.bits_inj'. intros i Hi.
  rewrite Z.land_spec, Z.lnot_spec by lia.
  change 7 with (Z.ones 3).
  destruct (Z.ltb_spec i 3).
  - rewrite Z.ones_spec_low by lia. cbn [negb]. rewrite andb_false_r.
    symmetry. rewrite (Z.div_mod x 8), Hx, Z.add_0_r by lia.
    rewrite Z.mul_comm. change 8 with (2 ^ 3).
    apply Z.mul_pow2_bits_low. lia.
  - rewrite Z.ones_spec_high by lia. apply andb_true_r.
Qed.

Lemma i16_small x : - 2 ^ 15 <= x <= HPOS_CNT -> i16 x = x.
Proof.
  unfold HPOS_CNT, i16, wrapS. intros Hx.
  rewrite Z.mod_small; lia.
Qed.

(** While no event is due and the line does not end, single cycles only
    count. *)
Lemma execute_idle (k : nat) : forall a : Agnus World,
  - 2 ^ 15 <= h (pos a) ->
  h (pos a) + Z.of_nat k <= HPOS_MAX ->
  clock a + DMA_CYCLES (Z.of_nat k) < nextTrigger a + DMA_CYCLES 1 ->
  Nat.iter k (execute executeEventsUntil) a =
    setPosH (setClock a (clock a + DMA_CYCLES (Z.of_nat k)))
            (h (pos a) + Z.of_nat k).
Proof.
  unfold DMA_CYCLES, HPOS_MAX.
  induction k as [|k IH]; intros a Hh Hmax Htrig.
  - destruct a as [c [pv ph] ? ? ? ? ? ? ? ?]; cbn.
    unfold setPosH, setClock; cbn. f_equal; [lia | f_equal; lia].
  - rewrite Nat.iter_succ, IH by lia.
    destruct a as [c [pv ph] nt ? ? ? ? ? ? ?].
    unfold execute, setPosH, setClock; cbn [clock pos h v nextTrigger] in *.
    cbn [clock pos h v nextTrigger slot busOwner bplEvent dasEvent
         nextBplEvent nextDasEvent world].
    replace (nt <=? c + 8 * Z.of_nat k) with false
      by (symmetry; apply Z.leb_gt; lia).
    cbn [clock pos h v nextTrigger slot busOwner bplEvent dasEvent
         nextBplEvent nextDasEvent world].
    replace (ph + Z.of_nat k <? HPOS_MAX) with true
      by (symmetry; apply Z.ltb_lt; unfold HPOS_MAX; lia).
    rewrite i16_small by (unfold HPOS_CNT; lia).
    unfold DMA_CYCLES. f_equal; [lia | f_equal; lia].
Qed.

(** The shortcut of [executeUntil] agrees with single cycles as long as it
    stays on the current line. *)
Lemma executeUntil_on_line (N : Z) (a : Agnus World) :
  0 <= N ->
  clock a mod DMA_CYCLES 1 = 0 ->
  - 2 ^ 15 <= h (pos a) ->
  (0 < N -> clock a + DMA_CYCLES N < nextTrigger a ->
   h (pos a) + N <= HPOS_MAX) ->
  executeUntil executeEventsUntil (clock a + DMA_CYCLES N) a
    = executeCycles executeEventsUntil N a.
Proof.
  intros HN Hal Hh Hline.
  unfold executeUntil, executeCycles.
  unfold DMA_CYCLES in *. change (8 * 1) with 8 in *.
  rewrite land_lnot7 by (rewrite (Z.mul_comm 8 N), Z.mod_add; lia).
  replace (clock a + 8 * N - clock a) with (N * 8) by lia.
  rewrite Z.quot_mul by lia.
  destruct (Z.ltb_spec (clock a + 8 * N) (nextTrigger a)) as [Hlt|Hge];
    [|reflexivity].
  destruct (Z.ltb_spec 0 N) as [Hpos|Hzero]; [|reflexivity].
  cbn [andb]. specialize (Hline Hpos Hlt).
  rewrite execute_idle;
    [ | lia
      | rewrite Z2Nat.id by lia; exact Hline
      | unfold DMA_CYCLES; rewrite Z2Nat.id by lia; lia ].
  unfold DMA_CYCLES. rewrite Z2Nat.id by lia.
  cbn [pos setClock].
  rewrite i16_small by (unfold HPOS_CNT, HPOS_MAX in *; lia).
  reflexivity.
Qed.

(** While no event is due, the assertion in [execute] keeps the beam on the
    line. *)
Lemma asserts_keep_line (k : nat) : forall a : Agnus World,
  - 2 ^ 15 <= h (pos a) ->
  (forall j : nat, (j < S k)%nat ->
     executeAsserts executeEventsUntil
       (Nat.iter j (execute executeEventsUntil) a) = true) ->
  clock a + DMA_CYCLES (Z.of_nat (S k)) < nextTrigger a + DMA_CYCLES 1 ->
  h (pos a) + Z.of_nat (S k) <= HPOS_MAX.
Proof.
  assert (Hnow : forall b : Agnus World,
            executeAsserts executeEventsUntil b = true ->
            clock b < nextTrigger b -> h (pos b) < HPOS_MAX).
  { intros b Hb Hidle. unfold executeAsserts in Hb.
    apply andb_true_iff in Hb as [Hb _]. apply andb_true_iff in Hb as [Hb _].
    replace (nextTrigger b <=? clock b) with false in Hb
      by (symmetry; apply Z.leb_gt; exact Hidle).
    apply Z.ltb_lt in Hb. exact Hb. }
  unfold DMA_CYCLES.
  induction k as [|k IH]; intros a Hh Has Htrig.
  - specialize (Hnow a (Has 0%nat ltac:(lia)) ltac:(lia)). lia.
  - assert (Hk : h (pos a) + Z.of_nat (S k) <= HPOS_MAX).
    { apply IH; [exact Hh | intros j Hj; apply Has; lia | lia]. }
    pose proof (Has (S k) ltac:(lia)) as Hlast.
    rewrite execute_idle in Hlast
      by (unfold DMA_CYCLES; assumption || lia).
    apply Hnow in Hlast; cbn [clock pos h nextTrigger setPosH setClock] in *;
      unfold DMA_CYCLES in *; lia.
Qed.

(** The same on every configuration on which the single cycles pass the
    assertions of [execute]. *)
Lemma executeUntil_cycles_asserted (N : Z) (a : Agnus World) :
  0 <= N ->
  clock a mod DMA_CYCLES 1 = 0 ->
  - 2 ^ 15 <= h (pos a) ->
  cyclesAssert executeEventsUntil N a ->
  executeUntil executeEventsUntil (clock a + DMA_CYCLES N) a
    = executeCycles executeEventsUntil N a.
Proof.
  intros HN Hal Hh Has. apply executeUntil_on_line; try assumption.
  intros Hpos Hlt.
  replace N with (Z.of_nat (S (Z.to_nat (N - 1)))) by lia.
  apply asserts_keep_line; [exact Hh | |].
  - intros j Hj. apply Has. lia.
  - unfold DMA_CYCLES in *. lia.
Qed.


End WithWorld.


(** The DAS table of a line with all DMA off, rebuilt from a blank jump
    table: the refresh slot at 0x01 is next for position 0, the marker at
    0xDF for everything up to it, and nothing follows the marker. *)
Example idle_das_jump_table :
  let t := updateJumpTable HPOS_MAX Samples.idleDasEvent (replicate 0xE3 0) in
  t !! 0%nat = Some 0x01
  /\ t !! 1%nat = Some 0xDF
  /\ t !! 0x38%nat = Some 0xDF
  /\ t !! 0xDE%nat = Some 0xDF
  /\ t !! 0xDF%nat = Some 0
  /\ t !! 0xE2%nat = Some 0.
Proof. vm_compute. repeat split; reflexivity. Qed.

(** One line of single cycles from the start of a line: the horizontal sync
    is served once and the beam is at the start of the next line. *)
Example one_line_of_cycles :
  let a := executeCycles Samples.serveHsync (HPOS_CNT + 1)
             (Samples.lineStart (DMA_CYCLES HPOS_CNT)) in
  pos a = mkBeam 1 1 /\ clock a = DMA_CYCLES (HPOS_CNT + 1).
Proof. vm_compute. split; reflexivity. Qed.


End AgnusSpec.
